(** * rocketpool-smartnode: the Infura proxy and the Geth cache default

  A shallow embedding of
  - package [proxy] (the JSON-RPC forwarding server: [NewProxyServer],
    [Start], [ServeHTTP]) and
  - [calculateGethCache] and [calculateGethPeers] of package [config]
    (shared/services/config/new-config.go),
  followed by the properties of the specification that concern them. *)

From Stdlib Require Import ZArith NArith Strings.String Strings.Ascii Strings.Byte Lia.
From stdpp Require Import base option list gmap strings.

(* ===================================================================== *)
(** ** Package fmt (the part the proxy uses) *)
(* ===================================================================== *)

Module fmt.

(** What [Sprintf] prints for an operand of type string under the verb
    [c]: the operand itself for [%s] and [%v], and Go's bad-verb form
    [%!c(string=x)] for a verb that does not apply to a string.  The
    package only ever uses [%s]. *)
Definition verb (c : ascii) (x : string) : string :=
  if (Ascii.eqb c "s"%char || Ascii.eqb c "v"%char)%bool then x
  else "%!" +:+ String c ("(string=" +:+ x +:+ ")").

(** Operands left over once the format is exhausted:
    [%!(EXTRA string=a, string=b)]. *)
Fixpoint extra_operands (a : list string) : string :=
  match a with
  | [] => ""
  | [x] => "string=" +:+ x
  | x :: a' => "string=" +:+ x +:+ ", " +:+ extra_operands a'
  end.

Definition extra (a : list string) : string :=
  match a with
  | [] => ""
  | _ => "%!(EXTRA " +:+ extra_operands a +:+ ")"
  end.

(** [fmt.Sprintf format a...] on string operands, for formats made of
    literal text, [%%] and one-letter verbs without flags or width. *)
Fixpoint Sprintf (format : string) (a : list string) : string :=
  match format with
  | EmptyString => extra a
  | String c rest =>
      if Ascii.eqb c "%"%char then
        match rest with
        | EmptyString => "%!(NOVERB)" +:+ extra a
        | String v rest' =>
            if Ascii.eqb v "%"%char then String "%"%char (Sprintf rest' a)
            else match a with
                 | [] => "%!" +:+ String v ("(MISSING)" +:+ Sprintf rest' [])
                 | x :: a' => verb v x +:+ Sprintf rest' a'
                 end
        end
      else String c (Sprintf rest a)
  end.

End fmt.

(* ===================================================================== *)
(** ** Package config: the default size of Geth's cache *)
(* ===================================================================== *)

Module Config.

Local Open Scope N_scope.

(** The chain of comparisons of [calculateGethCache], on the number of
    whole gigabytes [totalMemoryGB] (a [uint64]). *)
Definition gethCacheForGB (totalMemoryGB : N) : N :=
  if totalMemoryGB =? 0 then 0
  else if totalMemoryGB <? 9 then 256
  else if totalMemoryGB <? 13 then 2048
  else if totalMemoryGB <? 17 then 4096
  else if totalMemoryGB <? 25 then 8192
  else if totalMemoryGB <? 33 then 12288
  else 16384.

(** [calculateGethCache()], with the value read from
    [memory.TotalMemory()] (a [uint64] number of bytes) as its argument.
    The three divisions are [uint64] divisions and cannot wrap. *)
Definition calculateGethCache (TotalMemory : N) : N :=
  let totalMemoryGB := TotalMemory / 1024 / 1024 / 1024 in
  gethCacheForGB totalMemoryGB.

(** The values the function can return, in MB. *)
Definition cacheSizes : list N := [0; 256; 2048; 4096; 8192; 12288; 16384].

(** [calculateGethPeers()], with the constant [runtime.GOARCH] of the
    build as its argument; the result is an [int]. *)
Definition calculateGethPeers (GOARCH : string) : Z :=
  if String.eqb GOARCH "arm64" then 25%Z else 50%Z.

(** One gigabyte and one megabyte, in bytes. *)
Definition GiB : N := 1024 * 1024 * 1024.
Definition MiB : N := 1024 * 1024.

End Config.

(* ===================================================================== *)
(** ** The Go runtime the handler talks to *)
(* ===================================================================== *)

(** An [error] value, identified with the text of its [Error()] method;
    [errors.New] builds one from its text. *)
Definition error : Type := string.

Module errors.
Definition New (text : string) : error := text.
End errors.

Module io.

(** The state of an [io.ReadCloser] that streams a body received from the
    network: the chunks that the next calls of [Read] will deliver, how the
    stream ends once they are consumed ([None] is [io.EOF], [Some e] a
    failure of the connection), and whether [Close] has been called. *)
Record ReadCloser := {
  pending : list (list byte);
  failure : option error;
  closed : bool;
}.

Definition Close (b : ReadCloser) : ReadCloser :=
  {| pending := pending b; failure := failure b; closed := true |}.

End io.

Module http.

(** The fields of [http.Request] that the handler reads.  [Header] is the
    [map[string][]string] of Go; [Body] is the content of the body stream. *)
Record Request := {
  Method : string;
  RemoteAddr : string;
  Header : gmap string (list string);
  Body : list byte;
}.

(** The interface [http.ResponseWriter]: [HeaderSet k v] is
    [w.Header().Set(k, v)]; [Write] returns the new state of the writer and
    the error of the call ([None] is [nil]). *)
Class ResponseWriter (W : Type) := {
  HeaderSet : string -> string -> W -> W;
  Write : list byte -> W -> W * option error;
  WriteHeader : Z -> W -> W;
}.

(** [http.Response]; the body is a handle on a stream of the world. *)
Record Response := {
  StatusCode : Z;
  ResponseHeader : gmap string (list string);
  ResponseBody : nat;
}.

(** One call of [http.Post(url, contentType, body)]. *)
Record PostCall := {
  url : string;
  contentType : string;
  body : list byte;
}.

(** What the remote side answers to a POST that went through. *)
Record Reply := {
  replyStatus : Z;
  replyHeader : gmap string (list string);
  replyChunks : list (list byte);
  replyFailure : option error;
}.

(** The remote side: a POST either fails with an error or is answered. *)
Definition Provider : Type := PostCall -> error + Reply.

(** The in-memory writer of [net/http/httptest]: [Write] never fails; the
    first [Write] sends status 200 and the headers as they are at that
    moment, and later changes of the header map are not sent. *)
Record ResponseRecorder := {
  HeaderMap : gmap string (list string);
  sent : option (Z * gmap string (list string));
  written : list byte;
}.

Definition NewRecorder : ResponseRecorder :=
  {| HeaderMap := ∅; sent := None; written := [] |}.

Definition recorder_HeaderSet (k v : string) (w : ResponseRecorder)
  : ResponseRecorder :=
  {| HeaderMap := <[k := [v]]> (HeaderMap w); sent := sent w;
     written := written w |}.

Definition recorder_WriteHeader (code : Z) (w : ResponseRecorder)
  : ResponseRecorder :=
  match sent w with
  | Some _ => w
  | None => {| HeaderMap := HeaderMap w; sent := Some (code, HeaderMap w);
               written := written w |}
  end.

Definition recorder_Write (b : list byte) (w : ResponseRecorder)
  : ResponseRecorder * option error :=
  let w := recorder_WriteHeader 200 w in
  ({| HeaderMap := HeaderMap w; sent := sent w; written := written w ++ b |},
   None).

#[global] Instance recorder_ResponseWriter : ResponseWriter ResponseRecorder := {
  HeaderSet := recorder_HeaderSet;
  Write := recorder_Write;
  WriteHeader := recorder_WriteHeader;
}.

(** A writer whose peer has gone away: every [Write] fails. *)
Record BrokenWriter := { attempts : list (list byte) }.

#[global] Instance broken_ResponseWriter : ResponseWriter BrokenWriter := {
  HeaderSet := fun _ _ w => w;
  Write := fun b w => ({| attempts := attempts w ++ [b] |}, Some "broken pipe");
  WriteHeader := fun _ w => w;
}.

End http.

(** Everything outside the handler that it reads or changes. *)
Record World := {
  provider : http.Provider;        (* how the remote side behaves *)
  logged : list string;            (* lines of [log.Println], oldest first *)
  posted : list http.PostCall;     (* outbound POSTs issued, oldest first *)
  bodies : list io.ReadCloser;     (* response bodies obtained, by handle *)
}.

Definition set_logged (f : list string -> list string) (x : World) : World :=
  {| provider := provider x; logged := f (logged x); posted := posted x;
     bodies := bodies x |}.

Definition set_posted (f : list http.PostCall -> list http.PostCall) (x : World)
  : World :=
  {| provider := provider x; logged := logged x; posted := f (posted x);
     bodies := bodies x |}.

Definition set_bodies (f : list io.ReadCloser -> list io.ReadCloser) (x : World)
  : World :=
  {| provider := provider x; logged := logged x; posted := posted x;
     bodies := f (bodies x) |}.

(** The response bodies that were obtained and not closed. *)
Definition open_bodies (x : World) : list io.ReadCloser :=
  filter (fun b => io.closed b = false) (bodies x).

(** A call registered by [defer]. *)
Inductive Deferred := defer_Body_Close (h : nat).

Section Go.
Context {W : Type} `{!http.ResponseWriter W}.

(** The state of one activation of the handler: the response writer it was
    given, the world, and its stack of deferred calls (last one first). *)
Record Frame := {
  w : W;
  world : World;
  deferred : list Deferred;
}.

Definition set_w (f : W -> W) (s : Frame) : Frame :=
  {| w := f (w s); world := world s; deferred := deferred s |}.

Definition set_world (f : World -> World) (s : Frame) : Frame :=
  {| w := w s; world := f (world s); deferred := deferred s |}.

(** A statement either falls through to the next one with a value or
    leaves the function ([return]). *)
Inductive Flow (A : Type) :=
| Next (a : A)
| Return.
#[global] Arguments Next {A} a.
#[global] Arguments Return {A}.

Definition Go (A : Type) : Type := Frame -> Flow A * Frame.

Definition ret {A} (a : A) : Go A := fun s => (Next a, s).

Definition bind {A B} (m : Go A) (k : A -> Go B) : Go B :=
  fun s =>
    match m s with
    | (Next a, s') => k a s'
    | (Return, s') => (Return, s')
    end.

Definition return_ {A} : Go A := fun s => (Return, s).

(** [defer response.Body.Close()]: the operand is evaluated now, the call
    is made when the function is left. *)
Definition defer (d : Deferred) : Go unit :=
  fun s => (Next tt, {| w := w s; world := world s; deferred := d :: deferred s |}).

Definition run_deferred (d : Deferred) (x : World) : World :=
  match d with
  | defer_Body_Close h => set_bodies (alter io.Close h) x
  end.

(** A call of a function without results: run the body, then the deferred
    calls, last one first, however the body was left. *)
Definition call (body : Go unit) (w0 : W) (x : World) : W * World :=
  let s := snd (body {| w := w0; world := x; deferred := [] |}) in
  (w s, foldl (fun x d => run_deferred d x) (world s) (deferred s)).

(** [log.Println(v)] (the time stamp of the line is left out). *)
Definition log_Println (line : string) : Go unit :=
  fun s => (Next tt, set_world (set_logged (fun l => l ++ [line])) s).

(** The line feed that [Println] and [Fprintln] put after their operands. *)
Definition newline : string := String "010"%char "".

(** [fmt.Fprintln(w, v)]: one [Write] of the text and a newline; the
    handler discards its results. *)
Definition fmt_Fprintln (text : string) : Go unit :=
  fun s =>
    (Next tt,
     set_w (fun w => fst (http.Write (list_byte_of_string (text +:+ newline)) w))
       s).

(** [w.Header().Set(k, v)] *)
Definition w_Header_Set (k v : string) : Go unit :=
  fun s => (Next tt, set_w (http.HeaderSet k v) s).

(** [http.Post(url, contentType, body)]: the call is recorded, and on an
    answer its body becomes a new open stream of the world. *)
Definition http_Post (url contentType : string) (body : list byte)
  : Go (error + http.Response) :=
  fun s =>
    let c := {| http.url := url; http.contentType := contentType;
                http.body := body |} in
    let x := set_posted (fun l => l ++ [c]) (world s) in
    match provider x c with
    | inl err => (Next (inl err), set_world (fun _ => x) s)
    | inr a =>
        let h := length (bodies x) in
        let b := {| io.pending := http.replyChunks a;
                    io.failure := http.replyFailure a;
                    io.closed := false |} in
        (Next (inr {| http.StatusCode := http.replyStatus a;
                      http.ResponseHeader := http.replyHeader a;
                      http.ResponseBody := h |}),
         set_world (fun _ => set_bodies (fun l => l ++ [b]) x) s)
    end.

(** The loop of [io.Copy]: each chunk read from the source is written to
    the destination; it stops at the end of the source, at a failure of the
    source, or at the first [Write] that fails.  Returns the writer, the
    chunks not yet read, the number of bytes written and the error ([None]
    at [io.EOF]). *)
Fixpoint copy_chunks (cs : list (list byte)) (fail : option error)
  (written : Z) (dst : W) : W * list (list byte) * Z * option error :=
  match cs with
  | [] => (dst, [], written, fail)
  | [] :: cs' => copy_chunks cs' fail written dst
  | c :: cs' =>
      match http.Write c dst with
      | (dst', Some ew) => (dst', cs', written, Some ew)
      | (dst', None) => copy_chunks cs' fail (written + Z.of_nat (length c)) dst'
      end
  end.

(** [io.Copy(w, body)] for the response body with handle [h].  Reading a
    closed body fails at once; a handle that [http_Post] did not hand out
    has no stream to read and fails in the same way. *)
Definition io_Copy (h : nat) : Go (Z * option error) :=
  fun s =>
    match bodies (world s) !! h with
    | Some b =>
        if io.closed b then
          (Next (0%Z, Some "http: read on closed response body"), s)
        else
          let '(dst, rest, n, err) :=
            copy_chunks (io.pending b) (io.failure b) 0 (w s) in
          let b' := {| io.pending := rest; io.failure := io.failure b;
                       io.closed := false |} in
          (Next (n, err),
           {| w := dst;
              world := set_bodies (fun l => <[h := b']> l) (world s);
              deferred := deferred s |})
    | None => (Next (0%Z, Some "http: read on closed response body"), s)
    end.

End Go.

#[global] Arguments Frame W : clear implicits.
#[global] Arguments Go W A : clear implicits.

Declare Scope go_scope.
Delimit Scope go_scope with go.
Notation "x <- m ;; k" := (bind m (fun x => k))
  (at level 100, m at next level, right associativity) : go_scope.
Notation "m ;; k" := (bind m (fun _ => k))
  (at level 100, right associativity) : go_scope.

(* ===================================================================== *)
(** ** Package proxy *)
(* ===================================================================== *)

Module Proxy.

(** [const INFURA_URL] *)
Definition INFURA_URL : string := "https://%s.infura.io/v3/%s".

(** [type ProxyServer struct] *)
Record ProxyServer := {
  Port : string;
  ProviderUrl : string;
}.

(** [func NewProxyServer] *)
Definition NewProxyServer (port providerUrl network projectId : string)
  : ProxyServer :=
  (* Default provider to Infura *)
  let providerUrl :=
    if String.eqb providerUrl "" then fmt.Sprintf INFURA_URL [network; projectId]
    else providerUrl in
  (* Create and return proxy server *)
  {| Port := port; ProviderUrl := providerUrl |}.

Definition msg_no_content_type : string :=
  "Request Content-Type header not specified".

Definition msg_forward (err : error) : string :=
  "Error forwarding request to remote server: " +:+ err.

Definition msg_read (err : error) : string :=
  "Error reading response from remote server: " +:+ err.

Section Handler.
Context {W : Type} `{!http.ResponseWriter W}.
Local Open Scope go_scope.

(** The body of [func (p *ProxyServer) ServeHTTP], statement by statement. *)
Definition ServeHTTP_body (p : ProxyServer) (r : http.Request) : Go W unit :=
  (* Log request *)
  log_Println (fmt.Sprintf "New %s request received from %s"
                 [http.Method r; http.RemoteAddr r]) ;;
  (* Get request content type *)
  match http.Header r !! "Content-Type" with
  | None | Some [] =>
      log_Println (errors.New msg_no_content_type) ;;
      fmt_Fprintln (errors.New msg_no_content_type) ;;
      return_
  | Some (contentType0 :: _) =>
      (* Forward request to provider *)
      res <- http_Post (ProviderUrl p) contentType0 (http.Body r) ;;
      match res with
      | inl err =>
          log_Println (errors.New (msg_forward err)) ;;
          fmt_Fprintln (errors.New (msg_forward err)) ;;
          return_
      | inr response =>
          defer (defer_Body_Close (http.ResponseBody response)) ;;
          (* Set response writer header *)
          w_Header_Set "Content-Type" "application/json" ;;
          (* Copy provider response body to response writer *)
          copied <- io_Copy (http.ResponseBody response) ;;
          match snd copied with
          | Some err =>
              log_Println (errors.New (msg_read err)) ;;
              fmt_Fprintln (errors.New (msg_read err)) ;;
              return_
          | None =>
              (* Log success *)
              log_Println (fmt.Sprintf "Response sent to %s successfully"
                             [http.RemoteAddr r])
          end
      end
  end.

(** [ServeHTTP(w, r)] in the world [x]: the writer and the world when the
    handler has returned. *)
Definition ServeHTTP (p : ProxyServer) (w0 : W) (r : http.Request) (x : World)
  : W * World :=
  call (ServeHTTP_body p r) w0 x.

End Handler.

(** The server loop on a sequence of requests, each answered on a fresh
    recorder: the responses and the world at the end. *)
Fixpoint serve (p : ProxyServer) (rs : list http.Request) (x : World)
  : list http.ResponseRecorder * World :=
  match rs with
  | [] => ([], x)
  | r :: rs' =>
      let '(w1, x1) := ServeHTTP p http.NewRecorder r x in
      let '(ws, x2) := serve p rs' x1 in
      (w1 :: ws, x2)
  end.

(** The first line the handler logs for a request. *)
Definition request_line (r : http.Request) : string :=
  fmt.Sprintf "New %s request received from %s"
    [http.Method r; http.RemoteAddr r].

(** The last line it logs when the response went through. *)
Definition success_line (r : http.Request) : string :=
  fmt.Sprintf "Response sent to %s successfully" [http.RemoteAddr r].

(** The POST the handler issues for request [r] with content type [ct]. *)
Definition forward (p : ProxyServer) (ct : string) (r : http.Request)
  : http.PostCall :=
  {| http.url := ProviderUrl p; http.contentType := ct;
     http.body := http.Body r |}.

(** The bytes of one [Fprintln] of a message. *)
Definition line_bytes (text : string) : list byte :=
  list_byte_of_string (text +:+ newline).

(** The state of a recorder once the bytes [bs] of a copy have been written
    to it chunk by chunk: nothing is sent as long as nothing is written. *)
Definition recorder_after (bs : list byte) (w0 : http.ResponseRecorder)
  : http.ResponseRecorder :=
  {| http.HeaderMap := http.HeaderMap w0;
     http.sent := match bs with
                  | [] => http.sent w0
                  | _ => http.sent (http.recorder_WriteHeader 200 w0)
                  end;
     http.written := http.written w0 ++ bs |}.

(** [r] with its Content-Type header replaced by the list [cts]. *)
Definition with_content_type (cts : list string) (r : http.Request)
  : http.Request :=
  {| http.Method := http.Method r; http.RemoteAddr := http.RemoteAddr r;
     http.Header := <["Content-Type" := cts]> (http.Header r);
     http.Body := http.Body r |}.

(** The content type the handler forwards for [r]: the first value of its
    Content-Type header, when there is one. *)
Definition content_type (r : http.Request) : option string :=
  match http.Header r !! "Content-Type" with
  | Some (ct :: _) => Some ct
  | _ => None
  end.

(** The POSTs the handler issues for [r]: one or none. *)
Definition forwards (p : ProxyServer) (r : http.Request) : list http.PostCall :=
  match content_type r with
  | Some ct => [forward p ct r]
  | None => []
  end.

(** [func (p *ProxyServer) Start() error].  [http.ListenAndServe(addr, p)]
    binds [addr] and returns at once with the error when that fails;
    otherwise it hands every request that arrives to [p.ServeHTTP] and does
    not return.  [listen] tells for an address whether binding it fails, [rs]
    are the requests that arrive; the results are the error returned (if
    the call returns), the responses and the world. *)
Definition Start (p : ProxyServer) (listen : string -> option error)
  (rs : list http.Request) (x : World)
  : option error * list http.ResponseRecorder * World :=
  (* Log *)
  let x := set_logged
             (fun l => l ++ [fmt.Sprintf "Proxy server listening on port %s"
                               [Port p]]) x in
  (* Listen on RPC port *)
  match listen (":" +:+ Port p) with
  | Some err => (Some err, [], x)
  | None => let '(ws, x') := serve p rs x in (None, ws, x')
  end.

End Proxy.

(* ===================================================================== *)
(** ** Sample requests and providers *)
(* ===================================================================== *)

Module Samples.
Import Proxy.

Definition server : ProxyServer := NewProxyServer "8545" "" "mainnet" "abc123".

Definition blockNumber : list byte :=
  list_byte_of_string "{'jsonrpc':'2.0','method':'eth_blockNumber','id':1}".

Definition request (h : gmap string (list string)) : http.Request :=
  {| http.Method := "POST"; http.RemoteAddr := "127.0.0.1:40112";
     http.Header := h; http.Body := blockNumber |}.

Definition bare : http.Request := request ∅.
Definition json : http.Request :=
  request {[ "Content-Type" := ["application/json"] ]}.
Definition two_types : http.Request :=
  request {[ "Content-Type" := ["application/json"; "text/plain"] ]}.
Definition blank_type : http.Request := request {[ "Content-Type" := [""] ]}.
Definition no_values : http.Request := request {[ "Content-Type" := [] ]}.

(** An answer delivered in three reads and labelled as HTML. *)
Definition answer : http.Reply :=
  {| http.replyStatus := 200;
     http.replyHeader := {[ "Content-Type" := ["text/html"] ]};
     http.replyChunks := [list_byte_of_string "{'id':1,"; [];
                          list_byte_of_string "'result':'0x10'}"];
     http.replyFailure := None |}.

(** An answer whose connection drops after the first read. *)
Definition cut_answer : http.Reply :=
  {| http.replyStatus := 200;
     http.replyHeader := ∅;
     http.replyChunks := [list_byte_of_string "{'id':1,"];
     http.replyFailure := Some "unexpected EOF" |}.

Definition answering : http.Provider := fun _ => inr answer.
Definition dropping : http.Provider := fun _ => inr cut_answer.

(** A provider that cannot be reached. *)
Definition unreachable : http.Provider := fun _ =>
  inl "dial tcp: connection refused".

Definition start (p : http.Provider) : World :=
  {| provider := p; logged := []; posted := []; bodies := [] |}.

(** A GET from another address with a second header and two Content-Type
    values, and the body of [json]. *)
Definition get_json : http.Request :=
  {| http.Method := "GET"; http.RemoteAddr := "10.0.0.7:51000";
     http.Header := {[ "Content-Type" := ["application/json"; "text/plain"];
                       "Authorization" := ["Bearer t0k3n"] ]};
     http.Body := blockNumber |}.

(** A world in which one request has already been served. *)
Definition busy (p : http.Provider) : World :=
  {| provider := p;
     logged := ["New POST request received from 127.0.0.1:40112";
                "Response sent to 127.0.0.1:40112 successfully"];
     posted := [{| http.url := "https://mainnet.infura.io/v3/abc123";
                   http.contentType := "application/json";
                   http.body := blockNumber |}];
     bodies := [{| io.pending := []; io.failure := None;
                   io.closed := true |}] |}.

(** A listener for which port 80 is taken. *)
Definition port_80_taken : string -> option error := fun addr =>
  if String.eqb addr ":80"
  then Some "listen tcp :80: bind: address already in use" else None.

End Samples.

(* ===================================================================== *)
(** ** Properties of the Geth cache default *)
(* ===================================================================== *)

Module ConfigProofs.
Import Config.
Local Open Scope N_scope.

Example cache_8GB : calculateGethCache (8 * 1024 * 1024 * 1024) = 256.
Proof. reflexivity. Qed.

Example cache_below_1GB : calculateGethCache (1024 * 1024 * 1024 - 1) = 0.
Proof. reflexivity. Qed.

Example cache_32GB : calculateGethCache (32 * 1024 * 1024 * 1024) = 12288.
Proof. reflexivity. Qed.

Example cache_33GB : calculateGethCache (33 * 1024 * 1024 * 1024) = 16384.
Proof. reflexivity. Qed.

(** Unfold the chain of comparisons into linear arithmetic. *)
Ltac split_chain :=
  unfold gethCacheForGB;
  repeat match goal with
    | |- context [N.eqb ?a ?b] => destruct (N.eqb_spec a b)
    | |- context [N.ltb ?a ?b] => destruct (N.ltb_spec a b)
    end.

Lemma gethCacheForGB_mono (g1 g2 : N) :
  g1 <= g2 -> gethCacheForGB g1 <= gethCacheForGB g2.
Proof. intros Hle. split_chain; lia. Qed.

Lemma gethCacheForGB_range (g : N) : In (gethCacheForGB g) cacheSizes.
Proof. split_chain; simpl; tauto. Qed.

Lemma totalMemoryGB_mono (m1 m2 : N) :
  m1 <= m2 -> m1 / 1024 / 1024 / 1024 <= m2 / 1024 / 1024 / 1024.
Proof.
  intros Hle. repeat apply N.Div0.div_le_mono. exact Hle.
Qed.

(** C10.  The default Geth cache size is monotone non-decreasing in the
    total system memory, both as a function of the number of gigabytes
    ([gethCacheForGB]) and of the number of bytes read from the system
    ([calculateGethCache]), and its value is always one of 0, 256, 2048,
    4096, 8192, 12288 and 16384 MB. *)
Theorem calculateGethCache_monotone (m1 m2 : N) :
  m1 <= m2 ->
  gethCacheForGB m1 <= gethCacheForGB m2
  /\ calculateGethCache m1 <= calculateGethCache m2
  /\ In (gethCacheForGB m1) cacheSizes
  /\ In (calculateGethCache m1) cacheSizes
  /\ In (calculateGethCache m2) cacheSizes.
Proof.
  intros Hle. unfold calculateGethCache.
  repeat split.
  - now apply gethCacheForGB_mono.
  - now apply gethCacheForGB_mono, totalMemoryGB_mono.
  - apply gethCacheForGB_range.
  - apply gethCacheForGB_range.
  - apply gethCacheForGB_range.
Qed.

Lemma calculateGethCache_monotone_witness :
  12 <= 16
  /\ gethCacheForGB 12 = 2048 /\ gethCacheForGB 16 = 4096
  /\ gethCacheForGB 12 <= gethCacheForGB 16.
Proof.
  split; [lia |]. split; [reflexivity |]. split; [reflexivity |].
  apply (calculateGethCache_monotone 12 16). lia.
Defined.

End ConfigProofs.

(* ===================================================================== *)
(** ** Properties of the constructor *)
(* ===================================================================== *)

Module ConstructorProofs.
Import Proxy.

Example Sprintf_percent : fmt.Sprintf "100%% of %s" ["it"] = "100% of it".
Proof. reflexivity. Qed.

Example Sprintf_missing : fmt.Sprintf "%s-%s" ["a"] = "a-%!s(MISSING)".
Proof. reflexivity. Qed.

Example Sprintf_extra :
  fmt.Sprintf "%s" ["a"; "b"; "c"] = "a%!(EXTRA string=b, string=c)".
Proof. reflexivity. Qed.

Lemma append_empty_r (s : string) : s +:+ "" = s.
Proof.
  induction s as [| c s IH]; [reflexivity |].
  change (String c (s +:+ "") = String c s). now rewrite IH.
Qed.

(** The Infura template applied to a network and a project id. *)
Lemma Sprintf_INFURA_URL (network projectId : string) :
  fmt.Sprintf INFURA_URL [network; projectId]
  = "https://" +:+ network +:+ ".infura.io/v3/" +:+ projectId.
Proof.
  rewrite <- (append_empty_r projectId) at 2. reflexivity.
Qed.

(** C5.  With an empty explicit provider URL, the provider URL of the
    constructed server is the template https://{network}.infura.io/v3/{projectID}
    with the network name and the project id substituted; for network
    mainnet and project id abc123 it is https://mainnet.infura.io/v3/abc123. *)
Theorem NewProxyServer_default_url (port network projectId : string) :
  ProviderUrl (NewProxyServer port "" network projectId)
  = "https://" +:+ network +:+ ".infura.io/v3/" +:+ projectId
  /\ Port (NewProxyServer port "" network projectId) = port
  /\ ProviderUrl (NewProxyServer port "" "mainnet" "abc123")
     = "https://mainnet.infura.io/v3/abc123".
Proof.
  split; [| split].
  - unfold NewProxyServer. cbn [String.eqb ProviderUrl].
    apply Sprintf_INFURA_URL.
  - reflexivity.
  - reflexivity.
Qed.

(** C6.  With a non-empty explicit provider URL, the constructed server
    carries that URL and the given port, whatever the network name and the
    project id are: any two choices of them give the same server. *)
Theorem NewProxyServer_explicit_url
  (port providerUrl network projectId network' projectId' : string) :
  providerUrl <> "" ->
  ProviderUrl (NewProxyServer port providerUrl network projectId) = providerUrl
  /\ Port (NewProxyServer port providerUrl network projectId) = port
  /\ NewProxyServer port providerUrl network projectId
     = NewProxyServer port providerUrl network' projectId'.
Proof.
  intros Hne. unfold NewProxyServer.
  destruct (String.eqb_spec providerUrl "") as [-> | _]; [congruence |].
  repeat split.
Qed.

Lemma NewProxyServer_explicit_url_witness :
  ProviderUrl (NewProxyServer "8545" "http://localhost:8546" "mainnet" "abc123")
  = "http://localhost:8546"
  /\ Port (NewProxyServer "8545" "http://localhost:8546" "mainnet" "abc123")
     = "8545"
  /\ NewProxyServer "8545" "http://localhost:8546" "mainnet" "abc123"
     = NewProxyServer "8545" "http://localhost:8546" "prater" "".
Proof.
  apply (NewProxyServer_explicit_url
           "8545" "http://localhost:8546" "mainnet" "abc123" "prater" "").
  discriminate.
Defined.

(** C7.  Whatever the four arguments are (empty ones included), the
    provider URL of the constructed server is not the empty string. *)
Theorem NewProxyServer_url_nonempty (port providerUrl network projectId : string) :
  ProviderUrl (NewProxyServer port providerUrl network projectId) <> "".
Proof.
  unfold NewProxyServer. cbn [ProviderUrl].
  destruct (String.eqb_spec providerUrl "") as [-> | Hne].
  - rewrite Sprintf_INFURA_URL. discriminate.
  - exact Hne.
Qed.

Example NewProxyServer_all_empty :
  ProviderUrl (NewProxyServer "" "" "" "") = "https://.infura.io/v3/".
Proof. reflexivity. Qed.

End ConstructorProofs.

(* ===================================================================== *)
(** ** Properties of the request handler *)
(* ===================================================================== *)

Module HandlerProofs.
Import Proxy.

(** Run the statements of the handler without touching the texts. *)
Ltac go_run :=
  unfold log_Println, fmt_Fprintln, w_Header_Set, http_Post, defer, return_,
    ret, set_w, set_world, set_logged, set_posted, set_bodies, errors.New,
    line_bytes, request_line, success_line, forward in *;
  cbn [fst snd w world deferred foldl logged posted bodies provider
       run_deferred http.ResponseBody].

Section AnyWriter.
Context {W : Type} `{!http.ResponseWriter W}.

(** Without a Content-Type the handler logs, writes the message and
    returns: nothing else happens. *)
Lemma ServeHTTP_no_content_type (p : ProxyServer) (w0 : W) (r : http.Request)
  (x : World) :
  http.Header r !! "Content-Type" = None
  ∨ http.Header r !! "Content-Type" = Some [] →
  ServeHTTP p w0 r x
  = (fst (http.Write (line_bytes msg_no_content_type) w0),
     set_logged (fun l => l ++ [request_line r; msg_no_content_type]) x).
Proof.
  intros Hct. unfold ServeHTTP, call, ServeHTTP_body, bind.
  destruct Hct as [-> | ->]; go_run;
    rewrite <- (app_assoc (logged x)); reflexivity.
Qed.

(** When the POST fails the handler logs, writes the message and returns. *)
Lemma ServeHTTP_unreachable (p : ProxyServer) (w0 : W) (r : http.Request)
  (x : World) (ct : string) (more : list string) (err : error) :
  http.Header r !! "Content-Type" = Some (ct :: more) →
  provider x (forward p ct r) = inl err →
  ServeHTTP p w0 r x
  = (fst (http.Write (line_bytes (msg_forward err)) w0),
     set_posted (fun l => l ++ [forward p ct r])
       (set_logged (fun l => l ++ [request_line r; msg_forward err]) x)).
Proof.
  intros Hct Hpost. unfold ServeHTTP, call, ServeHTTP_body, bind.
  rewrite Hct. go_run. rewrite Hpost.
  go_run. rewrite <- (app_assoc (logged x)). reflexivity.
Qed.

(** When the POST is answered: the header is set, the body is copied, the
    outcome of the copy decides the last log line and whether a message is
    written, and the body is closed in both cases. *)
Lemma ServeHTTP_answered (p : ProxyServer) (w0 : W) (r : http.Request)
  (x : World) (ct : string) (more : list string) (a : http.Reply) :
  http.Header r !! "Content-Type" = Some (ct :: more) →
  provider x (forward p ct r) = inr a →
  ∀ dst rest n err,
    copy_chunks (http.replyChunks a) (http.replyFailure a) 0
      (http.HeaderSet "Content-Type" "application/json" w0)
    = (dst, rest, n, err) →
    ServeHTTP p w0 r x
    = (match err with
       | Some e => fst (http.Write (line_bytes (msg_read e)) dst)
       | None => dst
       end,
       {| provider := provider x;
          logged := logged x ++ [request_line r;
                                 match err with
                                 | Some e => msg_read e
                                 | None => success_line r
                                 end];
          posted := posted x ++ [forward p ct r];
          bodies := bodies x ++ [{| io.pending := rest;
                                    io.failure := http.replyFailure a;
                                    io.closed := true |}] |}).
Proof.
  intros Hct Hpost dst rest n err Hcopy.
  unfold ServeHTTP, call, ServeHTTP_body, bind.
  rewrite Hct. go_run. rewrite Hpost.
  go_run. unfold io_Copy. go_run.
  rewrite list_lookup_middle by reflexivity.
  cbn [io.closed io.pending io.failure]. rewrite Hcopy.
  cbn [snd]. destruct err as [e |]; go_run.
  all: rewrite <- (app_assoc (logged x)).
  all: rewrite insert_app_r_alt, Nat.sub_diag by reflexivity.
  all: go_run.
  all: rewrite alter_app_r_alt, Nat.sub_diag by reflexivity.
  all: reflexivity.
Qed.

End AnyWriter.

(** *** Every exit path closes the body *)

Section Closing.
Context {W : Type} `{!http.ResponseWriter W}.

(** What one request does to the outbound calls and to the bodies of the
    world, whatever the writer does: a request without Content-Type leaves
    both alone; any other request adds one POST, and one closed body when the
    POST was answered. *)
Lemma ServeHTTP_posted_bodies (p : ProxyServer) (w0 : W) (r : http.Request)
  (x : World) :
  match http.Header r !! "Content-Type" with
  | None | Some [] =>
      posted (snd (ServeHTTP p w0 r x)) = posted x
      ∧ bodies (snd (ServeHTTP p w0 r x)) = bodies x
  | Some (ct :: _) =>
      posted (snd (ServeHTTP p w0 r x)) = posted x ++ [forward p ct r]
      ∧ match provider x (forward p ct r) with
        | inl _ => bodies (snd (ServeHTTP p w0 r x)) = bodies x
        | inr a =>
            ∃ rest,
              bodies (snd (ServeHTTP p w0 r x))
              = bodies x ++ [{| io.pending := rest;
                                io.failure := http.replyFailure a;
                                io.closed := true |}]
        end
  end.
Proof.
  destruct (http.Header r !! "Content-Type") as [[| ct more] |] eqn:Hct.
  - rewrite ServeHTTP_no_content_type by (right; exact Hct). split; reflexivity.
  - destruct (provider x (forward p ct r)) as [err | a] eqn:Hpost.
    + rewrite (ServeHTTP_unreachable p w0 r x ct more err Hct Hpost).
      split; reflexivity.
    + destruct (copy_chunks (http.replyChunks a) (http.replyFailure a) 0
                  (http.HeaderSet "Content-Type" "application/json" w0))
        as [[[dst rest] n] err] eqn:Hcopy.
      rewrite (ServeHTTP_answered p w0 r x ct more a Hct Hpost _ _ _ _ Hcopy).
      split; [reflexivity |]. exists rest. reflexivity.
  - rewrite ServeHTTP_no_content_type by (left; exact Hct). split; reflexivity.
Qed.

Lemma open_bodies_closed (x x' : World) (b : io.ReadCloser) :
  bodies x' = bodies x ++ [b] → io.closed b = true →
  open_bodies x' = open_bodies x.
Proof.
  intros Hb Hc. unfold open_bodies. rewrite Hb, filter_app.
  rewrite filter_cons_False by (rewrite Hc; discriminate).
  rewrite filter_nil. apply app_nil_r.
Qed.

(** A request never adds an open body to the world. *)
Lemma ServeHTTP_open_bodies (p : ProxyServer) (w0 : W) (r : http.Request)
  (x : World) :
  open_bodies (snd (ServeHTTP p w0 r x)) = open_bodies x.
Proof.
  pose proof (ServeHTTP_posted_bodies p w0 r x) as Hpb.
  destruct (http.Header r !! "Content-Type") as [[| ct more] |].
  - destruct Hpb as [_ Hb]. unfold open_bodies. now rewrite Hb.
  - destruct Hpb as [_ Hb].
    destruct (provider x (forward p ct r)) as [err | a].
    + unfold open_bodies. now rewrite Hb.
    + destruct Hb as [rest Hb]. eapply open_bodies_closed; [exact Hb |].
      reflexivity.
  - destruct Hpb as [_ Hb]. unfold open_bodies. now rewrite Hb.
Qed.

End Closing.

(** No body is left open by a run of the server on any sequence of
    requests. *)
Lemma serve_open_bodies (p : ProxyServer) (rs : list http.Request) (x : World) :
  open_bodies (snd (serve p rs x)) = open_bodies x.
Proof.
  revert x. induction rs as [| r rs IH]; intros x; [reflexivity |].
  cbn [serve].
  pose proof (ServeHTTP_open_bodies p http.NewRecorder r x) as Hone.
  destruct (ServeHTTP p http.NewRecorder r x) as [w1 x1].
  pose proof (IH x1) as Hrest.
  destruct (serve p rs x1) as [ws x2].
  cbn [snd] in *. congruence.
Qed.

(** *** The recorder *)

Lemma recorder_after_nil (w0 : http.ResponseRecorder) : recorder_after [] w0 = w0.
Proof.
  destruct w0 as [h s b]. unfold recorder_after. cbn [http.HeaderMap http.sent
  http.written]. now rewrite app_nil_r.
Qed.

Lemma recorder_Write_after (c : list byte) (w0 : http.ResponseRecorder) :
  c ≠ [] → fst (http.Write c w0) = recorder_after c w0.
Proof.
  intros Hc. destruct c as [| b c]; [congruence |].
  unfold recorder_after, http.Write, http.recorder_ResponseWriter,
    http.recorder_Write, http.recorder_WriteHeader.
  destruct (http.sent w0); reflexivity.
Qed.

Lemma recorder_after_app (c bs : list byte) (w0 : http.ResponseRecorder) :
  recorder_after bs (recorder_after c w0) = recorder_after (c ++ bs) w0.
Proof.
  destruct w0 as [h s wr]. unfold recorder_after, http.recorder_WriteHeader.
  cbn [http.HeaderMap http.sent http.written].
  rewrite <- app_assoc.
  destruct c as [| b c], bs as [| b' bs], s as [st |];
    cbn [app http.sent]; rewrite ?app_nil_r; reflexivity.
Qed.

(** [io.Copy] onto a recorder consumes the whole source and ends as the
    source ends. *)
Lemma copy_chunks_recorder (cs : list (list byte)) (fail : option error)
  (n : Z) (w0 : http.ResponseRecorder) :
  copy_chunks cs fail n w0
  = (recorder_after (concat cs) w0, [],
     (n + Z.of_nat (length (concat cs)))%Z, fail).
Proof.
  revert n w0. induction cs as [| c cs IH]; intros n w0.
  - cbn [copy_chunks concat length]. now rewrite recorder_after_nil, Z.add_0_r.
  - destruct c as [| b c].
    + cbn [copy_chunks concat app]. apply IH.
    + cbn [copy_chunks]. rewrite (surjective_pairing (http.Write (b :: c) w0)).
      rewrite recorder_Write_after by discriminate.
      cbn [snd http.Write http.recorder_ResponseWriter http.recorder_Write].
      rewrite IH, recorder_after_app. cbn [concat].
      rewrite length_app, Nat2Z.inj_add, Z.add_assoc. reflexivity.
Qed.

(** One [Fprintln] on a recorder. *)
Lemma line_bytes_nonempty (text : string) : line_bytes text ≠ [].
Proof.
  unfold line_bytes. destruct text as [| c text]; discriminate.
Qed.

Lemma recorder_Fprintln (text : string) (w0 : http.ResponseRecorder) :
  fst (http.Write (line_bytes text) w0) = recorder_after (line_bytes text) w0.
Proof. apply recorder_Write_after, line_bytes_nonempty. Qed.

Lemma recorder_after_sent (bs : list byte) (w0 : http.ResponseRecorder) :
  bs ≠ [] → http.sent w0 = None →
  http.sent (recorder_after bs w0) = Some (200%Z, http.HeaderMap w0).
Proof.
  intros Hbs Hs. destruct bs as [| b bs]; [congruence |].
  unfold recorder_after, http.recorder_WriteHeader.
  cbn [http.sent]. rewrite Hs. reflexivity.
Qed.

(** *** The claims about the handler *)

(** C1.  For a request whose Content-Type header is absent, or present with
    an empty list of values, the handler writes the failure message (and a
    newline) to the response body and stops: the list of outbound POSTs is
    unchanged, no provider body is obtained, and the only other effect is the
    two log lines. *)
Theorem ServeHTTP_missing_content_type (p : ProxyServer)
  (w0 : http.ResponseRecorder) (r : http.Request) (x : World) :
  http.Header r !! "Content-Type" = None
  ∨ http.Header r !! "Content-Type" = Some [] →
  http.written (fst (ServeHTTP p w0 r x))
  = http.written w0 ++ line_bytes msg_no_content_type
  ∧ posted (snd (ServeHTTP p w0 r x)) = posted x
  ∧ bodies (snd (ServeHTTP p w0 r x)) = bodies x
  ∧ logged (snd (ServeHTTP p w0 r x))
    = logged x ++ [request_line r; msg_no_content_type].
Proof.
  intros Hct. rewrite (ServeHTTP_no_content_type p w0 r x Hct).
  cbn [fst snd]. rewrite recorder_Fprintln. repeat split.
Qed.

Lemma ServeHTTP_missing_content_type_witness :
  http.written (fst (ServeHTTP Samples.server http.NewRecorder Samples.bare
                       (Samples.start Samples.answering)))
  = [] ++ line_bytes msg_no_content_type
  ∧ posted (snd (ServeHTTP Samples.server http.NewRecorder Samples.bare
                   (Samples.start Samples.answering))) = []
  ∧ bodies (snd (ServeHTTP Samples.server http.NewRecorder Samples.bare
                   (Samples.start Samples.answering))) = []
  ∧ logged (snd (ServeHTTP Samples.server http.NewRecorder Samples.bare
                   (Samples.start Samples.answering)))
    = [] ++ [request_line Samples.bare; msg_no_content_type].
Proof.
  apply (ServeHTTP_missing_content_type Samples.server http.NewRecorder
           Samples.bare (Samples.start Samples.answering)).
  left. reflexivity.
Defined.

(** C2.  For a request with a Content-Type value, when the POST is answered
    and the answer's body B is delivered to its end, the handler sets the
    response header Content-Type to application/json, whatever the headers of
    the answer are, and then writes exactly B: the body of the response is
    extended by B, and what is sent with the first byte is status 200 and the
    headers with Content-Type application/json. *)
Theorem ServeHTTP_relays_body (p : ProxyServer) (w0 : http.ResponseRecorder)
  (r : http.Request) (x : World) (ct : string) (more : list string)
  (a : http.Reply) :
  http.Header r !! "Content-Type" = Some (ct :: more) →
  provider x (forward p ct r) = inr a →
  http.replyFailure a = None →
  http.sent w0 = None →
  http.HeaderMap (fst (ServeHTTP p w0 r x)) !! "Content-Type"
  = Some ["application/json"]
  ∧ http.written (fst (ServeHTTP p w0 r x))
    = http.written w0 ++ concat (http.replyChunks a)
  ∧ http.sent (fst (ServeHTTP p w0 r x))
    = match concat (http.replyChunks a) with
      | [] => None
      | _ => Some (200%Z, <["Content-Type" := ["application/json"]]>
                            (http.HeaderMap w0))
      end
  ∧ posted (snd (ServeHTTP p w0 r x)) = posted x ++ [forward p ct r].
Proof.
  intros Hct Hpost Hend Hfresh.
  rewrite (ServeHTTP_answered p w0 r x ct more a Hct Hpost _ _ _ _
             (copy_chunks_recorder _ _ _ _)).
  rewrite Hend. cbn [fst snd posted].
  unfold recorder_after, http.recorder_WriteHeader.
  cbn [http.HeaderSet http.recorder_ResponseWriter http.recorder_HeaderSet
       http.HeaderMap http.sent http.written].
  rewrite Hfresh.
  split; [apply lookup_insert_eq |]. split; [reflexivity |].
  split; [| reflexivity].
  destruct (concat (http.replyChunks a)); reflexivity.
Qed.

Lemma ServeHTTP_relays_body_witness :
  http.HeaderMap (fst (ServeHTTP Samples.server http.NewRecorder Samples.json
                         (Samples.start Samples.answering))) !! "Content-Type"
  = Some ["application/json"]
  ∧ http.written (fst (ServeHTTP Samples.server http.NewRecorder Samples.json
                         (Samples.start Samples.answering)))
    = [] ++ concat (http.replyChunks Samples.answer)
  ∧ http.sent (fst (ServeHTTP Samples.server http.NewRecorder Samples.json
                      (Samples.start Samples.answering)))
    = match concat (http.replyChunks Samples.answer) with
      | [] => None
      | _ => Some (200%Z, <["Content-Type" := ["application/json"]]> ∅)
      end
  ∧ posted (snd (ServeHTTP Samples.server http.NewRecorder Samples.json
                   (Samples.start Samples.answering)))
    = [] ++ [forward Samples.server "application/json" Samples.json].
Proof.
  apply (ServeHTTP_relays_body Samples.server http.NewRecorder Samples.json
           (Samples.start Samples.answering) "application/json" []
           Samples.answer); reflexivity.
Defined.

(** C3.  When the answer's body fails after some of its bytes were
    delivered, the response body is: what it was, then the bytes delivered
    before the failure, then the plain-text failure message and a newline.
    The response header Content-Type is application/json and was sent as such
    with status 200; exactly one POST was issued (no retry). *)
Theorem ServeHTTP_copy_failure (p : ProxyServer) (w0 : http.ResponseRecorder)
  (r : http.Request) (x : World) (ct : string) (more : list string)
  (a : http.Reply) (e : error) :
  http.Header r !! "Content-Type" = Some (ct :: more) →
  provider x (forward p ct r) = inr a →
  http.replyFailure a = Some e →
  http.sent w0 = None →
  http.written (fst (ServeHTTP p w0 r x))
  = http.written w0 ++ concat (http.replyChunks a) ++ line_bytes (msg_read e)
  ∧ http.HeaderMap (fst (ServeHTTP p w0 r x)) !! "Content-Type"
    = Some ["application/json"]
  ∧ http.sent (fst (ServeHTTP p w0 r x))
    = Some (200%Z, <["Content-Type" := ["application/json"]]>
                     (http.HeaderMap w0))
  ∧ posted (snd (ServeHTTP p w0 r x)) = posted x ++ [forward p ct r]
  ∧ logged (snd (ServeHTTP p w0 r x))
    = logged x ++ [request_line r; msg_read e].
Proof.
  intros Hct Hpost Hfail Hfresh.
  rewrite (ServeHTTP_answered p w0 r x ct more a Hct Hpost _ _ _ _
             (copy_chunks_recorder _ _ _ _)).
  rewrite Hfail. cbn [fst snd posted logged].
  rewrite recorder_Fprintln, recorder_after_app.
  split; [reflexivity |]. split; [apply lookup_insert_eq |].
  split; [| split; reflexivity].
  apply recorder_after_sent; [| exact Hfresh].
  pose proof (line_bytes_nonempty (msg_read e)) as Hne.
  destruct (concat (http.replyChunks a)); [exact Hne | discriminate].
Qed.

Lemma ServeHTTP_copy_failure_witness :
  http.written (fst (ServeHTTP Samples.server http.NewRecorder Samples.json
                       (Samples.start Samples.dropping)))
  = [] ++ concat (http.replyChunks Samples.cut_answer)
       ++ line_bytes (msg_read "unexpected EOF")
  ∧ http.HeaderMap (fst (ServeHTTP Samples.server http.NewRecorder Samples.json
                           (Samples.start Samples.dropping))) !! "Content-Type"
    = Some ["application/json"]
  ∧ http.sent (fst (ServeHTTP Samples.server http.NewRecorder Samples.json
                      (Samples.start Samples.dropping)))
    = Some (200%Z, <["Content-Type" := ["application/json"]]> ∅)
  ∧ posted (snd (ServeHTTP Samples.server http.NewRecorder Samples.json
                   (Samples.start Samples.dropping)))
    = [] ++ [forward Samples.server "application/json" Samples.json]
  ∧ logged (snd (ServeHTTP Samples.server http.NewRecorder Samples.json
                   (Samples.start Samples.dropping)))
    = [] ++ [request_line Samples.json; msg_read "unexpected EOF"].
Proof.
  apply (ServeHTTP_copy_failure Samples.server http.NewRecorder Samples.json
           (Samples.start Samples.dropping) "application/json" []
           Samples.cut_answer "unexpected EOF"); reflexivity.
Defined.

(** C4.  When the POST is answered, the body of the answer is closed when
    the handler returns, whether the copy succeeded or failed and whatever
    the writer did: the world has gained exactly one body, it is closed, and
    the open bodies are those that were open before the request. *)
Theorem ServeHTTP_closes_body {W : Type} `{!http.ResponseWriter W}
  (p : ProxyServer) (w0 : W) (r : http.Request) (x : World) (ct : string)
  (more : list string) (a : http.Reply) :
  http.Header r !! "Content-Type" = Some (ct :: more) →
  provider x (forward p ct r) = inr a →
  (∃ rest,
     bodies (snd (ServeHTTP p w0 r x))
     = bodies x ++ [{| io.pending := rest; io.failure := http.replyFailure a;
                       io.closed := true |}])
  ∧ open_bodies (snd (ServeHTTP p w0 r x)) = open_bodies x.
Proof.
  intros Hct Hpost. split; [| apply ServeHTTP_open_bodies].
  pose proof (ServeHTTP_posted_bodies p w0 r x) as Hpb.
  rewrite Hct, Hpost in Hpb. exact (proj2 Hpb).
Qed.

Lemma ServeHTTP_closes_body_witness :
  (∃ rest,
     bodies (snd (ServeHTTP Samples.server http.NewRecorder Samples.json
                    (Samples.start Samples.dropping)))
     = [] ++ [{| io.pending := rest; io.failure := Some "unexpected EOF";
                 io.closed := true |}])
  ∧ open_bodies (snd (ServeHTTP Samples.server http.NewRecorder Samples.json
                        (Samples.start Samples.dropping)))
    = open_bodies (Samples.start Samples.dropping).
Proof.
  apply (ServeHTTP_closes_body Samples.server http.NewRecorder Samples.json
           (Samples.start Samples.dropping) "application/json" []
           Samples.cut_answer); reflexivity.
Defined.

(** C8.  On the two early error paths (no Content-Type; the POST fails) the
    handler's only call on the response writer is the one [Write] of the
    message: it never calls [WriteHeader] and never touches the header map.
    On a recorder the header map is unchanged, the body is extended by the
    message, and what is sent is the implicit status 200 with the headers as
    they were. *)
Theorem ServeHTTP_error_paths_frame (p : ProxyServer)
  (w0 : http.ResponseRecorder) (r : http.Request) (x : World) (msg : string) :
  ((http.Header r !! "Content-Type" = None
    ∨ http.Header r !! "Content-Type" = Some [])
   ∧ msg = msg_no_content_type)
  ∨ (∃ ct more err,
       http.Header r !! "Content-Type" = Some (ct :: more)
       ∧ provider x (forward p ct r) = inl err
       ∧ msg = msg_forward err) →
  fst (ServeHTTP p w0 r x) = fst (http.Write (line_bytes msg) w0)
  ∧ http.HeaderMap (fst (ServeHTTP p w0 r x)) = http.HeaderMap w0
  ∧ http.written (fst (ServeHTTP p w0 r x)) = http.written w0 ++ line_bytes msg
  ∧ http.sent (fst (ServeHTTP p w0 r x))
    = match http.sent w0 with
      | Some s => Some s
      | None => Some (200%Z, http.HeaderMap w0)
      end.
Proof.
  intros Hpath.
  assert (fst (ServeHTTP p w0 r x) = fst (http.Write (line_bytes msg) w0))
    as Hw.
  { destruct Hpath as [[Hct ->] | (ct & more & err & Hct & Hpost & ->)].
    - now rewrite (ServeHTTP_no_content_type p w0 r x Hct).
    - now rewrite (ServeHTTP_unreachable p w0 r x ct more err Hct Hpost). }
  rewrite Hw. split; [reflexivity |].
  rewrite recorder_Fprintln.
  pose proof (line_bytes_nonempty msg) as Hne.
  unfold recorder_after, http.recorder_WriteHeader.
  cbn [http.HeaderMap http.written http.sent].
  split; [reflexivity |]. split; [reflexivity |].
  destruct (line_bytes msg); [congruence |].
  destruct w0 as [h [st |] wr]; reflexivity.
Qed.

Lemma ServeHTTP_error_paths_frame_witness :
  fst (ServeHTTP Samples.server http.NewRecorder Samples.json
         (Samples.start Samples.unreachable))
  = fst (http.Write
           (line_bytes (msg_forward "dial tcp: connection refused"))
           http.NewRecorder)
  ∧ http.HeaderMap (fst (ServeHTTP Samples.server http.NewRecorder Samples.json
                           (Samples.start Samples.unreachable))) = ∅
  ∧ http.written (fst (ServeHTTP Samples.server http.NewRecorder Samples.json
                         (Samples.start Samples.unreachable)))
    = [] ++ line_bytes (msg_forward "dial tcp: connection refused")
  ∧ http.sent (fst (ServeHTTP Samples.server http.NewRecorder Samples.json
                      (Samples.start Samples.unreachable)))
    = Some (200%Z, ∅).
Proof.
  apply (ServeHTTP_error_paths_frame Samples.server http.NewRecorder
           Samples.json (Samples.start Samples.unreachable)
           (msg_forward "dial tcp: connection refused")).
  right. exists "application/json", [], "dial tcp: connection refused".
  repeat split; reflexivity.
Defined.

(** C9.  For a request whose Content-Type header has the values
    [ct :: more], the handler issues exactly one POST, to the provider URL,
    with content type [ct] and the body of the request; the other values are
    ignored: the handler behaves as on the same request with [ct] as the only
    value. *)
Theorem ServeHTTP_first_content_type {W : Type} `{!http.ResponseWriter W}
  (p : ProxyServer) (w0 : W) (r : http.Request) (x : World) (ct : string)
  (more : list string) :
  http.Header r !! "Content-Type" = Some (ct :: more) →
  posted (snd (ServeHTTP p w0 r x))
  = posted x ++ [{| http.url := ProviderUrl p; http.contentType := ct;
                    http.body := http.Body r |}]
  ∧ ServeHTTP p w0 r x = ServeHTTP p w0 (with_content_type [ct] r) x.
Proof.
  intros Hct. split.
  - pose proof (ServeHTTP_posted_bodies p w0 r x) as Hpb.
    rewrite Hct in Hpb. exact (proj1 Hpb).
  - unfold ServeHTTP, call, ServeHTTP_body, with_content_type.
    cbn [http.Header http.Method http.RemoteAddr http.Body].
    rewrite Hct, lookup_insert_eq. reflexivity.
Qed.

Lemma ServeHTTP_first_content_type_witness :
  posted (snd (ServeHTTP Samples.server http.NewRecorder Samples.two_types
                 (Samples.start Samples.answering)))
  = [] ++ [{| http.url := "https://mainnet.infura.io/v3/abc123";
              http.contentType := "application/json";
              http.body := Samples.blockNumber |}]
  ∧ ServeHTTP Samples.server http.NewRecorder Samples.two_types
      (Samples.start Samples.answering)
    = ServeHTTP Samples.server http.NewRecorder
        (with_content_type ["application/json"] Samples.two_types)
        (Samples.start Samples.answering).
Proof.
  apply (ServeHTTP_first_content_type Samples.server http.NewRecorder
           Samples.two_types (Samples.start Samples.answering)
           "application/json" ["text/plain"]).
  reflexivity.
Defined.

(** *** The handler on the sample requests *)

(** A Content-Type header with no values is treated like a missing one. *)
Example no_values_rejected :
  posted (snd (ServeHTTP Samples.server http.NewRecorder Samples.no_values
                 (Samples.start Samples.answering))) = [].
Proof. reflexivity. Qed.

(** A Content-Type header whose only value is the empty string passes the
    test on the number of values and is forwarded as it is. *)
Example blank_type_forwarded :
  posted (snd (ServeHTTP Samples.server http.NewRecorder Samples.blank_type
                 (Samples.start Samples.answering)))
  = [{| http.url := "https://mainnet.infura.io/v3/abc123";
        http.contentType := "";
        http.body := Samples.blockNumber |}].
Proof. reflexivity. Qed.

(** The answer reaches the caller as it is. *)
Example json_relayed :
  string_of_list_byte
    (http.written (fst (ServeHTTP Samples.server http.NewRecorder Samples.json
                          (Samples.start Samples.answering))))
  = "{'id':1,'result':'0x10'}".
Proof. reflexivity. Qed.

(** When the caller has gone away the copy stops at the first write, the
    message is attempted, and the body is closed all the same. *)
Example broken_writer_closes :
  bodies (snd (ServeHTTP Samples.server {| http.attempts := [] |} Samples.json
                 (Samples.start Samples.answering)))
  = [{| io.pending := [[]; list_byte_of_string "'result':'0x10'}"];
        io.failure := None; io.closed := true |}].
Proof. reflexivity. Qed.

(** Three requests in a row, two of them failing, leave no body open. *)
Example serve_three :
  open_bodies (snd (serve Samples.server
                      [Samples.json; Samples.bare; Samples.json]
                      (Samples.start Samples.dropping))) = []
  ∧ length (bodies (snd (serve Samples.server
                           [Samples.json; Samples.bare; Samples.json]
                           (Samples.start Samples.dropping)))) = 2.
Proof. split; reflexivity. Qed.

End HandlerProofs.

(* ===================================================================== *)
(** ** More on the Geth defaults *)
(* ===================================================================== *)

Module ConfigMore.
Import Config.
Local Open Scope N_scope.

(** The three divisions by 1024 are one division by a gigabyte. *)
Lemma totalMemoryGB_div (m : N) : m / 1024 / 1024 / 1024 = m / GiB.
Proof. unfold GiB. now rewrite !N.Div0.div_div. Qed.

Lemma gethCacheForGB_zero (g : N) : gethCacheForGB g = 0 ↔ g = 0.
Proof.
  unfold gethCacheForGB.
  repeat match goal with
    | |- context [N.eqb ?a ?b] => destruct (N.eqb_spec a b)
    | |- context [N.ltb ?a ?b] => destruct (N.ltb_spec a b)
    end; split; intros; lia.
Qed.

Lemma gethCacheForGB_half (g : N) : gethCacheForGB g <= 512 * g.
Proof.
  unfold gethCacheForGB.
  repeat match goal with
    | |- context [N.eqb ?a ?b] => destruct (N.eqb_spec a b)
    | |- context [N.ltb ?a ?b] => destruct (N.ltb_spec a b)
    end; lia.
Qed.

(** X1.  The function recommends no cache at all (0) exactly when the
    system has less than one gigabyte of memory; from one gigabyte on the
    recommendation is at least 256 MB. *)
Theorem calculateGethCache_zero_iff (m : N) :
  (calculateGethCache m = 0 ↔ m < GiB)
  ∧ (GiB <= m ↔ 256 <= calculateGethCache m).
Proof.
  unfold calculateGethCache. rewrite totalMemoryGB_div.
  assert (Hz : m / GiB = 0 ↔ m < GiB) by (apply N.div_small_iff; discriminate).
  pose proof (gethCacheForGB_zero (m / GiB)) as H0.
  pose proof (ConfigProofs.gethCacheForGB_range (m / GiB)) as Hr.
  unfold cacheSizes in Hr. cbn [In] in Hr.
  split; [tauto |]. split; intros H; [| lia].
  assert (gethCacheForGB (m / GiB) <> 0) by (rewrite H0, Hz; lia).
  lia.
Qed.

(** X2.  The recommended cache never takes more than half of the memory
    of the system: twice the cache, in bytes, is at most the total memory;
    and it is never more than 16384 MB. *)
Theorem calculateGethCache_half_memory (m : N) :
  2 * (calculateGethCache m * MiB) <= m
  ∧ calculateGethCache m <= 16384.
Proof.
  unfold calculateGethCache. rewrite totalMemoryGB_div. split.
  - pose proof (gethCacheForGB_half (m / GiB)) as Hh.
    assert (GiB * (m / GiB) <= m) as Hm by (apply N.Div0.mul_div_le).
    unfold GiB, MiB in *. lia.
  - pose proof (ConfigProofs.gethCacheForGB_range (m / GiB)) as Hr.
    unfold cacheSizes in Hr. cbn [In] in Hr. lia.
Qed.

(** X3.  The memory is counted in whole gigabytes, rounded down: a system
    with [g] gigabytes and [b] more bytes, [b] less than a gigabyte, gets the
    recommendation for [g] gigabytes. *)
Theorem calculateGethCache_rounds_down (g b : N) :
  b < GiB → calculateGethCache (g * GiB + b) = gethCacheForGB g.
Proof.
  intros Hb. unfold calculateGethCache. rewrite totalMemoryGB_div.
  f_equal. rewrite N.add_comm, N.div_add by discriminate.
  rewrite N.div_small by exact Hb. reflexivity.
Qed.

Lemma calculateGethCache_rounds_down_witness :
  calculateGethCache (8 * GiB + (GiB - 1)) = gethCacheForGB 8.
Proof.
  apply (calculateGethCache_rounds_down 8 (GiB - 1)). reflexivity.
Defined.

Example cache_just_below_9GB : calculateGethCache (9 * GiB - 1) = 256.
Proof. reflexivity. Qed.

Example cache_at_9GB : calculateGethCache (9 * GiB) = 2048.
Proof. reflexivity. Qed.

(** X4.  The default number of Geth peers is 25 on arm64 and 50 on every
    other architecture; it is never below 12, the least that the
    description of the parameter recommends. *)
Theorem calculateGethPeers_bounds (GOARCH : string) :
  (GOARCH = "arm64" ↔ calculateGethPeers GOARCH = 25%Z)
  ∧ (GOARCH ≠ "arm64" ↔ calculateGethPeers GOARCH = 50%Z)
  ∧ (12 <= calculateGethPeers GOARCH <= 50)%Z.
Proof.
  unfold calculateGethPeers.
  destruct (String.eqb_spec GOARCH "arm64") as [-> | Hne].
  - repeat split; intros; try lia; congruence.
  - repeat split; intros; try lia; congruence.
Qed.

End ConfigMore.

(* ===================================================================== *)
(** ** More on the constructor, the handler and the server loop *)
(* ===================================================================== *)

Module ProxyMore.
Import Proxy HandlerProofs.

(** X5.  The provider URL of a constructed server is always accepted as an
    explicit URL: building a server again from it, with any port, network
    and project id, gives the same provider URL. *)
Theorem NewProxyServer_rebuild
  (port providerUrl network projectId port' network' projectId' : string) :
  ProviderUrl
    (NewProxyServer port'
       (ProviderUrl (NewProxyServer port providerUrl network projectId))
       network' projectId')
  = ProviderUrl (NewProxyServer port providerUrl network projectId).
Proof.
  set (u := ProviderUrl (NewProxyServer port providerUrl network projectId)).
  assert (u ≠ "") as Hne.
  { subst u. unfold NewProxyServer. cbn [ProviderUrl].
    destruct (String.eqb_spec providerUrl "") as [-> | Hne]; [| exact Hne].
    rewrite ConstructorProofs.Sprintf_INFURA_URL. discriminate. }
  unfold NewProxyServer at 1. cbn [ProviderUrl].
  destruct (String.eqb_spec u "") as [He | _]; [congruence | reflexivity].
Qed.

Section AnyWriter.
Context {W : Type} `{!http.ResponseWriter W}.

Lemma content_type_None (r : http.Request) :
  content_type r = None →
  http.Header r !! "Content-Type" = None
  ∨ http.Header r !! "Content-Type" = Some [].
Proof.
  unfold content_type.
  destruct (http.Header r !! "Content-Type") as [[| ct more] |];
    intros Hc; [right | discriminate | left]; reflexivity.
Qed.

Lemma content_type_Some (r : http.Request) (ct : string) :
  content_type r = Some ct →
  ∃ more, http.Header r !! "Content-Type" = Some (ct :: more).
Proof.
  unfold content_type.
  destruct (http.Header r !! "Content-Type") as [[| ct' more] |];
    intros Hc; try discriminate.
  injection Hc as ->. now exists more.
Qed.

(** The world after a request: the provider is the same, the log has two
    more lines, the POSTs are extended by [forwards p r], and the bodies by
    at most one body, which is closed. *)
Lemma ServeHTTP_world (p : ProxyServer) (w0 : W) (r : http.Request)
  (x : World) :
  ∃ line bs,
    snd (ServeHTTP p w0 r x)
    = {| provider := provider x;
         logged := logged x ++ [request_line r; line];
         posted := posted x ++ forwards p r;
         bodies := bodies x ++ bs |}
    ∧ Forall (fun b => io.closed b = true) bs
    ∧ (length bs ≤ 1)%nat.
Proof.
  unfold forwards.
  destruct (content_type r) as [ct |] eqn:Hc.
  - destruct (content_type_Some r ct Hc) as [more Hct].
    destruct (provider x (forward p ct r)) as [err | a] eqn:Hpost.
    + rewrite (ServeHTTP_unreachable p w0 r x ct more err Hct Hpost).
      exists (msg_forward err), []. rewrite app_nil_r.
      split; [reflexivity |]. split; [constructor | cbn; lia].
    + destruct (copy_chunks (http.replyChunks a) (http.replyFailure a) 0
                  (http.HeaderSet "Content-Type" "application/json" w0))
        as [[[dst rest] n] err] eqn:Hcopy.
      rewrite (ServeHTTP_answered p w0 r x ct more a Hct Hpost _ _ _ _ Hcopy).
      eexists _, [_]. split; [reflexivity |].
      split; [repeat constructor | cbn; lia].
  - rewrite (ServeHTTP_no_content_type p w0 r x (content_type_None r Hc)).
    exists msg_no_content_type, []. rewrite !app_nil_r.
    split; [reflexivity |]. split; [constructor | cbn; lia].
Qed.

(** The response does not depend on what happened before: only on the
    provider. *)
Lemma ServeHTTP_writer_history (p : ProxyServer) (w0 : W) (r : http.Request)
  (x x' : World) :
  provider x = provider x' →
  fst (ServeHTTP p w0 r x) = fst (ServeHTTP p w0 r x').
Proof.
  intros Hp.
  destruct (content_type r) as [ct |] eqn:Hc.
  - destruct (content_type_Some r ct Hc) as [more Hct].
    destruct (provider x (forward p ct r)) as [err | a] eqn:Hpost.
    + rewrite (ServeHTTP_unreachable p w0 r x ct more err Hct Hpost).
      rewrite Hp in Hpost.
      now rewrite (ServeHTTP_unreachable p w0 r x' ct more err Hct Hpost).
    + destruct (copy_chunks (http.replyChunks a) (http.replyFailure a) 0
                  (http.HeaderSet "Content-Type" "application/json" w0))
        as [[[dst rest] n] err] eqn:Hcopy.
      rewrite (ServeHTTP_answered p w0 r x ct more a Hct Hpost _ _ _ _ Hcopy).
      rewrite Hp in Hpost.
      now rewrite (ServeHTTP_answered p w0 r x' ct more a Hct Hpost _ _ _ _
                     Hcopy).
  - pose proof (content_type_None r Hc) as Hct.
    now rewrite !(ServeHTTP_no_content_type p w0 _ _ Hct).
Qed.

Lemma ServeHTTP_provider (p : ProxyServer) (w0 : W) (r : http.Request)
  (x : World) :
  provider (snd (ServeHTTP p w0 r x)) = provider x.
Proof.
  destruct (ServeHTTP_world p w0 r x) as (line & bs & -> & _). reflexivity.
Qed.

(** X6.  Of a request, only the first Content-Type value and the body
    decide the response and the outbound traffic: two requests that agree on
    them get the same response, the same POST and the same provider body,
    whatever their methods, remote addresses and other headers are. *)
Theorem ServeHTTP_method_and_headers_ignored (p : ProxyServer) (w0 : W)
  (r r' : http.Request) (x : World) :
  content_type r = content_type r' →
  http.Body r = http.Body r' →
  fst (ServeHTTP p w0 r x) = fst (ServeHTTP p w0 r' x)
  ∧ posted (snd (ServeHTTP p w0 r x)) = posted (snd (ServeHTTP p w0 r' x))
  ∧ bodies (snd (ServeHTTP p w0 r x)) = bodies (snd (ServeHTTP p w0 r' x)).
Proof.
  intros Hc Hb.
  destruct (content_type r) as [ct |] eqn:Hcr; symmetry in Hc.
  - destruct (content_type_Some r ct Hcr) as [more Hct].
    destruct (content_type_Some r' ct Hc) as [more' Hct'].
    assert (forward p ct r' = forward p ct r) as Hf
        by (unfold forward; now rewrite Hb).
    destruct (provider x (forward p ct r)) as [err | a] eqn:Hpost.
    + rewrite (ServeHTTP_unreachable p w0 r x ct more err Hct Hpost).
      rewrite <- Hf in Hpost.
      rewrite (ServeHTTP_unreachable p w0 r' x ct more' err Hct' Hpost).
      rewrite Hf. unfold set_posted, set_logged.
      cbn [fst snd posted bodies]. repeat split.
    + destruct (copy_chunks (http.replyChunks a) (http.replyFailure a) 0
                  (http.HeaderSet "Content-Type" "application/json" w0))
        as [[[dst rest] n] err] eqn:Hcopy.
      rewrite (ServeHTTP_answered p w0 r x ct more a Hct Hpost _ _ _ _ Hcopy).
      rewrite <- Hf in Hpost.
      rewrite (ServeHTTP_answered p w0 r' x ct more' a Hct' Hpost _ _ _ _
                 Hcopy).
      rewrite Hf. unfold set_posted, set_logged.
      cbn [fst snd posted bodies]. repeat split.
  - pose proof (content_type_None r Hcr) as Hct.
    pose proof (content_type_None r' Hc) as Hct'.
    rewrite (ServeHTTP_no_content_type p w0 r x Hct).
    rewrite (ServeHTTP_no_content_type p w0 r' x Hct').
    unfold set_logged. cbn [fst snd posted bodies]. repeat split.
Qed.

(** X7.  Every request adds exactly two lines to the log: first the line
    that names its method and remote address, then one line for the
    outcome; the lines logged before stay as they are. *)
Theorem ServeHTTP_logs_two_lines (p : ProxyServer) (w0 : W)
  (r : http.Request) (x : World) :
  ∃ line,
    logged (snd (ServeHTTP p w0 r x))
    = logged x ++ ["New " +:+ http.Method r +:+ " request received from "
                   +:+ http.RemoteAddr r; line].
Proof.
  destruct (ServeHTTP_world p w0 r x) as (line & bs & -> & _).
  exists line. cbn [logged]. do 2 f_equal.
  unfold request_line.
  rewrite <- (ConstructorProofs.append_empty_r (http.RemoteAddr r)) at 2.
  reflexivity.
Qed.

(** X8.  A request never rewrites history: the provider is the same
    afterwards, the POSTs and the bodies that were there are still there in
    the same order and state, at most one POST and at most one body are
    added, and a body that is added is closed. *)
Theorem ServeHTTP_history_kept (p : ProxyServer) (w0 : W) (r : http.Request)
  (x : World) :
  provider (snd (ServeHTTP p w0 r x)) = provider x
  ∧ ∃ ps bs,
      posted (snd (ServeHTTP p w0 r x)) = posted x ++ ps
      ∧ bodies (snd (ServeHTTP p w0 r x)) = bodies x ++ bs
      ∧ (length ps ≤ 1)%nat ∧ (length bs ≤ length ps)%nat
      ∧ Forall (fun b => io.closed b = true) bs.
Proof.
  split; [apply ServeHTTP_provider |].
  pose proof (ServeHTTP_posted_bodies p w0 r x) as Hpb.
  destruct (http.Header r !! "Content-Type") as [[| ct more] |].
  - destruct Hpb as [-> ->]. exists [], []. rewrite !app_nil_r.
    repeat split; cbn [length]; try lia; constructor.
  - destruct Hpb as [-> Hb]. eexists [_].
    destruct (provider x (forward p ct r)) as [err | a].
    + rewrite Hb. exists []. rewrite app_nil_r.
      repeat split; cbn; try lia. constructor.
    + destruct Hb as [rest ->]. eexists [_].
      repeat split; cbn; try lia. repeat constructor.
  - destruct Hpb as [-> ->]. exists [], []. rewrite !app_nil_r.
    repeat split; cbn [length]; try lia; constructor.
Qed.

(** X9.  The handler keeps no state between requests: in two worlds with
    the same provider it gives the same response, whatever was logged,
    posted or received before. *)
Theorem ServeHTTP_stateless (p : ProxyServer) (w0 : W) (r : http.Request)
  (x x' : World) :
  provider x = provider x' →
  fst (ServeHTTP p w0 r x) = fst (ServeHTTP p w0 r x')
  ∧ provider (snd (ServeHTTP p w0 r x)) = provider (snd (ServeHTTP p w0 r x')).
Proof.
  intros Hp. split; [now apply ServeHTTP_writer_history |].
  now rewrite !ServeHTTP_provider.
Qed.

End AnyWriter.

Lemma ServeHTTP_method_and_headers_ignored_witness :
  fst (ServeHTTP Samples.server http.NewRecorder Samples.get_json
         (Samples.start Samples.answering))
  = fst (ServeHTTP Samples.server http.NewRecorder Samples.json
           (Samples.start Samples.answering))
  ∧ posted (snd (ServeHTTP Samples.server http.NewRecorder Samples.get_json
                   (Samples.start Samples.answering)))
    = posted (snd (ServeHTTP Samples.server http.NewRecorder Samples.json
                     (Samples.start Samples.answering)))
  ∧ bodies (snd (ServeHTTP Samples.server http.NewRecorder Samples.get_json
                   (Samples.start Samples.answering)))
    = bodies (snd (ServeHTTP Samples.server http.NewRecorder Samples.json
                     (Samples.start Samples.answering))).
Proof.
  apply (ServeHTTP_method_and_headers_ignored Samples.server http.NewRecorder
           Samples.get_json Samples.json (Samples.start Samples.answering));
    reflexivity.
Defined.

Lemma ServeHTTP_stateless_witness :
  fst (ServeHTTP Samples.server http.NewRecorder Samples.json
         (Samples.start Samples.dropping))
  = fst (ServeHTTP Samples.server http.NewRecorder Samples.json
           (Samples.busy Samples.dropping))
  ∧ provider (snd (ServeHTTP Samples.server http.NewRecorder Samples.json
                     (Samples.start Samples.dropping)))
    = provider (snd (ServeHTTP Samples.server http.NewRecorder Samples.json
                       (Samples.busy Samples.dropping))).
Proof.
  apply (ServeHTTP_stateless Samples.server http.NewRecorder Samples.json
           (Samples.start Samples.dropping) (Samples.busy Samples.dropping)).
  reflexivity.
Defined.

(** X10.  When the caller's writer refuses the first chunk of the answer,
    the handler stops copying (the rest of the answer stays unread), reports
    the error of the writer under the text for a read error, in the log and
    in one more write to the same writer, and closes the body. *)
Theorem ServeHTTP_writer_failure {W : Type} `{!http.ResponseWriter W}
  (p : ProxyServer) (w0 w1 : W) (r : http.Request) (x : World) (ct : string)
  (more : list string) (a : http.Reply) (c : list byte)
  (cs : list (list byte)) (ew : error) :
  http.Header r !! "Content-Type" = Some (ct :: more) →
  provider x (forward p ct r) = inr a →
  http.replyChunks a = c :: cs →
  c ≠ [] →
  http.Write c (http.HeaderSet "Content-Type" "application/json" w0)
  = (w1, Some ew) →
  fst (ServeHTTP p w0 r x)
  = fst (http.Write
           (line_bytes ("Error reading response from remote server: " +:+ ew))
           w1)
  ∧ logged (snd (ServeHTTP p w0 r x))
    = logged x ++ [request_line r;
                   "Error reading response from remote server: " +:+ ew]
  ∧ bodies (snd (ServeHTTP p w0 r x))
    = bodies x ++ [{| io.pending := cs; io.failure := http.replyFailure a;
                      io.closed := true |}].
Proof.
  intros Hct Hpost Hcs Hc Hwrite.
  assert (copy_chunks (http.replyChunks a) (http.replyFailure a) 0
            (http.HeaderSet "Content-Type" "application/json" w0)
          = (w1, cs, 0%Z, Some ew)) as Hcopy.
  { rewrite Hcs. destruct c as [| b c]; [congruence |].
    cbn [copy_chunks]. rewrite Hwrite. reflexivity. }
  rewrite (ServeHTTP_answered p w0 r x ct more a Hct Hpost _ _ _ _ Hcopy).
  cbn [fst snd logged bodies]. repeat split.
Qed.

Lemma ServeHTTP_writer_failure_witness :
  fst (ServeHTTP Samples.server {| http.attempts := [] |} Samples.json
         (Samples.start Samples.answering))
  = fst (http.Write
           (line_bytes ("Error reading response from remote server: "
                        +:+ "broken pipe"))
           {| http.attempts := [list_byte_of_string "{'id':1,"] |})
  ∧ logged (snd (ServeHTTP Samples.server {| http.attempts := [] |}
                   Samples.json (Samples.start Samples.answering)))
    = [] ++ [request_line Samples.json;
             "Error reading response from remote server: " +:+ "broken pipe"]
  ∧ bodies (snd (ServeHTTP Samples.server {| http.attempts := [] |}
                   Samples.json (Samples.start Samples.answering)))
    = [] ++ [{| io.pending := [[]; list_byte_of_string "'result':'0x10'}"];
                io.failure := None; io.closed := true |}].
Proof.
  apply (ServeHTTP_writer_failure Samples.server {| http.attempts := [] |}
           {| http.attempts := [list_byte_of_string "{'id':1,"] |}
           Samples.json (Samples.start Samples.answering) "application/json"
           [] Samples.answer (list_byte_of_string "{'id':1,")
           [[]; list_byte_of_string "'result':'0x10'}"] "broken pipe");
    try reflexivity.
  discriminate.
Defined.

(** *** On the recorder *)

(** The response on a recorder, case by case. *)
Lemma ServeHTTP_recorder (p : ProxyServer) (w0 : http.ResponseRecorder)
  (r : http.Request) (x : World) :
  fst (ServeHTTP p w0 r x)
  = match content_type r with
    | None => recorder_after (line_bytes msg_no_content_type) w0
    | Some ct =>
        match provider x (forward p ct r) with
        | inl err => recorder_after (line_bytes (msg_forward err)) w0
        | inr a =>
            match http.replyFailure a with
            | Some e =>
                recorder_after
                  (concat (http.replyChunks a) ++ line_bytes (msg_read e))
                  (http.HeaderSet "Content-Type" "application/json" w0)
            | None =>
                recorder_after (concat (http.replyChunks a))
                  (http.HeaderSet "Content-Type" "application/json" w0)
            end
        end
    end.
Proof.
  destruct (content_type r) as [ct |] eqn:Hc.
  - destruct (content_type_Some r ct Hc) as [more Hct].
    destruct (provider x (forward p ct r)) as [err | a] eqn:Hpost.
    + rewrite (ServeHTTP_unreachable p w0 r x ct more err Hct Hpost).
      cbn [fst]. apply recorder_Fprintln.
    + rewrite (ServeHTTP_answered p w0 r x ct more a Hct Hpost _ _ _ _
                 (copy_chunks_recorder _ _ _ _)).
      cbn [fst]. destruct (http.replyFailure a) as [e |]; [| reflexivity].
      now rewrite recorder_Fprintln, recorder_after_app.
  - rewrite (ServeHTTP_no_content_type p w0 r x (content_type_None r Hc)).
    cbn [fst]. apply recorder_Fprintln.
Qed.

(** X11.  When the provider cannot be reached, the caller gets the text
    "Error forwarding request to remote server: " followed by the error of
    the POST and a newline; the same text is logged; exactly one POST was
    attempted and no provider body was obtained. *)
Theorem ServeHTTP_provider_unreachable (p : ProxyServer)
  (w0 : http.ResponseRecorder) (r : http.Request) (x : World) (ct : string)
  (more : list string) (err : error) :
  http.Header r !! "Content-Type" = Some (ct :: more) →
  provider x (forward p ct r) = inl err →
  http.written (fst (ServeHTTP p w0 r x))
  = http.written w0
    ++ list_byte_of_string
         ("Error forwarding request to remote server: " +:+ err +:+ newline)
  ∧ logged (snd (ServeHTTP p w0 r x))
    = logged x ++ [request_line r;
                   "Error forwarding request to remote server: " +:+ err]
  ∧ posted (snd (ServeHTTP p w0 r x)) = posted x ++ [forward p ct r]
  ∧ bodies (snd (ServeHTTP p w0 r x)) = bodies x.
Proof.
  intros Hct Hpost.
  rewrite (ServeHTTP_unreachable p w0 r x ct more err Hct Hpost).
  cbn [fst snd]. rewrite recorder_Fprintln.
  unfold recorder_after, line_bytes, msg_forward, set_posted, set_logged.
  cbn [http.written logged posted bodies].
  split; [reflexivity | repeat split].
Qed.

Lemma ServeHTTP_provider_unreachable_witness :
  http.written (fst (ServeHTTP Samples.server http.NewRecorder Samples.json
                       (Samples.start Samples.unreachable)))
  = [] ++ list_byte_of_string
            ("Error forwarding request to remote server: "
             +:+ "dial tcp: connection refused" +:+ newline)
  ∧ logged (snd (ServeHTTP Samples.server http.NewRecorder Samples.json
                   (Samples.start Samples.unreachable)))
    = [] ++ [request_line Samples.json;
             "Error forwarding request to remote server: "
             +:+ "dial tcp: connection refused"]
  ∧ posted (snd (ServeHTTP Samples.server http.NewRecorder Samples.json
                   (Samples.start Samples.unreachable)))
    = [] ++ [forward Samples.server "application/json" Samples.json]
  ∧ bodies (snd (ServeHTTP Samples.server http.NewRecorder Samples.json
                   (Samples.start Samples.unreachable))) = [].
Proof.
  apply (ServeHTTP_provider_unreachable Samples.server http.NewRecorder
           Samples.json (Samples.start Samples.unreachable)
           "application/json" [] "dial tcp: connection refused");
    reflexivity.
Defined.

(** Conclude from a hypothesis on what was sent. *)
Ltac finish :=
  match goal with
  | Hs : match ?s with Some _ => _ | None => True end |- _ =>
      destruct s as [[? ?] |]; [tauto | exact I]
  end.

(** X12.  Whatever status code the provider answers with, and on every
    error path, the status the handler sends is 200: once anything is sent on
    a fresh recorder, it is status 200, with the headers as they were or with
    Content-Type set to application/json. *)
Theorem ServeHTTP_status_always_200 (p : ProxyServer)
  (w0 : http.ResponseRecorder) (r : http.Request) (x : World) :
  http.sent w0 = None →
  match http.sent (fst (ServeHTTP p w0 r x)) with
  | None => True
  | Some (code, h) =>
      code = 200%Z
      ∧ (h = http.HeaderMap w0
         ∨ h = <["Content-Type" := ["application/json"]]> (http.HeaderMap w0))
  end.
Proof.
  intros Hfresh. rewrite ServeHTTP_recorder.
  assert (∀ bs, match http.sent (recorder_after bs w0) with
                | None => True
                | Some (code, h) => code = 200%Z ∧ h = http.HeaderMap w0
                end) as Hplain.
  { intros bs. unfold recorder_after, http.recorder_WriteHeader.
    cbn [http.sent]. rewrite Hfresh. destruct bs; [exact I |].
    cbn [http.sent]. split; reflexivity. }
  assert (∀ bs,
            match http.sent
                    (recorder_after bs
                       (http.HeaderSet "Content-Type" "application/json" w0))
            with
            | None => True
            | Some (code, h) =>
                code = 200%Z
                ∧ h = <["Content-Type" := ["application/json"]]>
                        (http.HeaderMap w0)
            end) as Hjson.
  { intros bs. unfold recorder_after, http.recorder_WriteHeader.
    cbn [http.HeaderSet http.recorder_ResponseWriter http.recorder_HeaderSet
         http.HeaderMap http.sent].
    rewrite Hfresh. destruct bs; [exact I |].
    cbn [http.sent]. split; reflexivity. }
  destruct (content_type r) as [ct |].
  - destruct (provider x (forward p ct r)) as [err | a].
    + specialize (Hplain (line_bytes (msg_forward err))).
      finish.
    + destruct (http.replyFailure a) as [e |].
      * specialize (Hjson (concat (http.replyChunks a)
                           ++ line_bytes (msg_read e))).
        finish.
      * specialize (Hjson (concat (http.replyChunks a))).
        finish.
  - specialize (Hplain (line_bytes msg_no_content_type)).
    finish.
Qed.

Lemma ServeHTTP_status_always_200_witness :
  match http.sent (fst (ServeHTTP Samples.server http.NewRecorder
                          Samples.json (Samples.start Samples.answering))) with
  | None => True
  | Some (code, h) =>
      code = 200%Z
      ∧ (h = ∅ ∨ h = <["Content-Type" := ["application/json"]]> ∅)
  end.
Proof.
  apply (ServeHTTP_status_always_200 Samples.server http.NewRecorder
           Samples.json (Samples.start Samples.answering)).
  reflexivity.
Defined.

(** X13.  The only response header the handler ever touches is
    Content-Type, and only once the POST has been answered: the header map
    afterwards is the one before, with Content-Type replaced by
    application/json in that case.  No header of the provider's answer
    reaches the caller. *)
Theorem ServeHTTP_header_frame (p : ProxyServer) (w0 : http.ResponseRecorder)
  (r : http.Request) (x : World) :
  http.HeaderMap (fst (ServeHTTP p w0 r x))
  = match content_type r with
    | None => http.HeaderMap w0
    | Some ct =>
        match provider x (forward p ct r) with
        | inl _ => http.HeaderMap w0
        | inr _ => <["Content-Type" := ["application/json"]]> (http.HeaderMap w0)
        end
    end.
Proof.
  rewrite ServeHTTP_recorder.
  destruct (content_type r) as [ct |]; [| reflexivity].
  destruct (provider x (forward p ct r)) as [err | a]; [reflexivity |].
  destruct (http.replyFailure a); reflexivity.
Qed.

(** *** The outcome line of the log *)

Lemma last_two {A : Type} (l : list A) (a b : A) : last (l ++ [a; b]) = Some b.
Proof.
  change (l ++ [a; b]) with (l ++ [a] ++ [b]).
  rewrite app_assoc. apply last_snoc.
Qed.

(** The success line differs from every error line: its third character is
    an s, theirs is a q or an r. *)
Lemma success_line_not_error (r : http.Request) :
  success_line r ≠ msg_no_content_type
  ∧ (∀ e, success_line r ≠ msg_forward e)
  ∧ (∀ e, success_line r ≠ msg_read e).
Proof.
  assert (String.get 2 (success_line r) = Some "s"%char) as Hs by reflexivity.
  split; [| split]; [| intros e | intros e]; intros Heq;
    rewrite Heq in Hs; discriminate Hs.
Qed.

(** X14.  The line "Response sent to ... successfully" is the last line of
    the log exactly when the request had a Content-Type value, the POST was
    answered and the whole body of the answer was delivered; after any
    failure the last line is the error instead. *)
Theorem ServeHTTP_success_logged_iff (p : ProxyServer)
  (w0 : http.ResponseRecorder) (r : http.Request) (x : World) :
  last (logged (snd (ServeHTTP p w0 r x)))
  = Some ("Response sent to " +:+ http.RemoteAddr r +:+ " successfully")
  ↔ ∃ ct a,
      content_type r = Some ct
      ∧ provider x (forward p ct r) = inr a
      ∧ http.replyFailure a = None.
Proof.
  assert ("Response sent to " +:+ http.RemoteAddr r +:+ " successfully"
          = success_line r) as ->.
  { unfold success_line.
    rewrite <- (ConstructorProofs.append_empty_r " successfully").
    reflexivity. }
  destruct (success_line_not_error r) as (Hn & Hf & Hr).
  destruct (content_type r) as [ct |] eqn:Hc.
  - destruct (content_type_Some r ct Hc) as [more Hct].
    destruct (provider x (forward p ct r)) as [err | a] eqn:Hpost.
    + rewrite (ServeHTTP_unreachable p w0 r x ct more err Hct Hpost).
      unfold set_posted, set_logged. cbn [snd logged]. rewrite last_two.
      split.
      * intros Heq. apply (inj Some) in Heq. now destruct (Hf err).
      * intros (ct' & a & [= <-] & Ha & _). congruence.
    + rewrite (ServeHTTP_answered p w0 r x ct more a Hct Hpost _ _ _ _
                 (copy_chunks_recorder _ _ _ _)).
      cbn [snd logged]. rewrite last_two.
      destruct (http.replyFailure a) as [e |] eqn:Hfail.
      * split.
        -- intros Heq. apply (inj Some) in Heq. now destruct (Hr e).
        -- intros (ct' & a' & [= <-] & Ha & Hnone). congruence.
      * split; [| reflexivity]. intros _. now exists ct, a.
  - rewrite (ServeHTTP_no_content_type p w0 r x (content_type_None r Hc)).
    unfold set_logged. cbn [snd logged]. rewrite last_two.
    split.
    + intros Heq. apply (inj Some) in Heq. now destruct Hn.
    + intros (ct & a & Hct & _). discriminate Hct.
Qed.

(** *** The server loop *)

Lemma serve_cons (p : ProxyServer) (r : http.Request) (rs : list http.Request)
  (x : World) :
  serve p (r :: rs) x
  = (fst (ServeHTTP p http.NewRecorder r x)
       :: fst (serve p rs (snd (ServeHTTP p http.NewRecorder r x))),
     snd (serve p rs (snd (ServeHTTP p http.NewRecorder r x)))).
Proof.
  cbn [serve].
  destruct (ServeHTTP p http.NewRecorder r x) as [w1 x1]. cbn [fst snd].
  destruct (serve p rs x1) as [ws x2]. reflexivity.
Qed.

Lemma serve_provider (p : ProxyServer) (rs : list http.Request) (x : World) :
  provider (snd (serve p rs x)) = provider x.
Proof.
  revert x. induction rs as [| r rs IH]; intros x; [reflexivity |].
  rewrite serve_cons. cbn [snd]. now rewrite IH, ServeHTTP_provider.
Qed.

Lemma serve_fst (p : ProxyServer) (rs : list http.Request) (x : World) :
  fst (serve p rs x)
  = map (fun r => fst (ServeHTTP p http.NewRecorder r x)) rs.
Proof.
  revert x. induction rs as [| r rs IH]; intros x; [reflexivity |].
  rewrite serve_cons. cbn [fst map]. f_equal. rewrite IH.
  apply map_ext. intros r'. apply ServeHTTP_writer_history.
  apply ServeHTTP_provider.
Qed.

Lemma serve_posted (p : ProxyServer) (rs : list http.Request) (x : World) :
  posted (snd (serve p rs x)) = posted x ++ concat (map (forwards p) rs).
Proof.
  revert x. induction rs as [| r rs IH]; intros x.
  - cbn. now rewrite app_nil_r.
  - rewrite serve_cons. cbn [snd map concat]. rewrite IH.
    destruct (ServeHTTP_world p http.NewRecorder r x) as (line & bs & -> & _).
    cbn [posted]. now rewrite app_assoc.
Qed.

Lemma serve_logged (p : ProxyServer) (rs : list http.Request) (x : World) :
  ∃ rest, logged (snd (serve p rs x)) = logged x ++ rest.
Proof.
  revert x. induction rs as [| r rs IH]; intros x.
  - exists []. cbn. now rewrite app_nil_r.
  - rewrite serve_cons. cbn [snd].
    destruct (IH (snd (ServeHTTP p http.NewRecorder r x))) as [rest ->].
    destruct (ServeHTTP_world p http.NewRecorder r x) as (line & bs & -> & _).
    cbn [logged]. eexists. now rewrite <- app_assoc.
Qed.

(** X15.  The requests of a run are answered independently and in order:
    each response is the one the handler gives to that request alone, so a
    failed request changes nothing for the later ones; and the outbound
    traffic of the run is, in order, one POST for every request that has a
    Content-Type value and none for the others. *)
Theorem serve_independent (p : ProxyServer) (rs : list http.Request)
  (x : World) :
  fst (serve p rs x)
  = map (fun r => fst (ServeHTTP p http.NewRecorder r x)) rs
  ∧ posted (snd (serve p rs x)) = posted x ++ concat (map (forwards p) rs)
  ∧ provider (snd (serve p rs x)) = provider x.
Proof.
  split; [apply serve_fst |]. split; [apply serve_posted |].
  apply serve_provider.
Qed.

(** X16.  [Start] logs that the server is listening before it binds the
    port, so the line is in the log even when binding fails; it returns an
    error exactly when binding the address made of a colon and the port
    fails, and then no request is served and no POST issued.  Otherwise the
    requests are served as by the loop, and in both cases no provider body
    is left open. *)
Theorem Start_listen (p : ProxyServer) (listen : string → option error)
  (rs : list http.Request) (x : World) :
  fst (fst (Start p listen rs x)) = listen (":" +:+ Port p)
  ∧ (∃ rest,
       logged (snd (Start p listen rs x))
       = logged x ++ ("Proxy server listening on port " +:+ Port p) :: rest)
  ∧ open_bodies (snd (Start p listen rs x)) = open_bodies x
  ∧ match listen (":" +:+ Port p) with
    | Some _ =>
        snd (fst (Start p listen rs x)) = []
        ∧ posted (snd (Start p listen rs x)) = posted x
    | None =>
        snd (fst (Start p listen rs x))
        = map (fun r => fst (ServeHTTP p http.NewRecorder r x)) rs
        ∧ posted (snd (Start p listen rs x))
          = posted x ++ concat (map (forwards p) rs)
    end.
Proof.
  unfold Start.
  assert (fmt.Sprintf "Proxy server listening on port %s" [Port p]
          = "Proxy server listening on port " +:+ Port p) as ->.
  { rewrite <- (ConstructorProofs.append_empty_r (Port p)) at 2.
    reflexivity. }
  set (line := "Proxy server listening on port " +:+ Port p).
  set (x0 := set_logged (fun l => l ++ [line]) x).
  destruct (listen (":" +:+ Port p)) as [err |].
  - cbn [fst snd]. split; [reflexivity |]. split.
    + exists []. reflexivity.
    + repeat split.
  - rewrite (surjective_pairing (serve p rs x0)). cbn [fst snd].
    split; [reflexivity |]. split; [| split; [| split]].
    + destruct (serve_logged p rs x0) as [rest ->].
      exists rest. subst x0. unfold set_logged. cbn [logged].
      now rewrite <- app_assoc.
    + now rewrite serve_open_bodies.
    + rewrite serve_fst. apply map_ext. intros r.
      now apply ServeHTTP_writer_history.
    + now rewrite serve_posted.
Qed.

Example Start_port_taken :
  Start (NewProxyServer "80" "" "mainnet" "abc123") Samples.port_80_taken
    [Samples.json] (Samples.start Samples.answering)
  = (Some "listen tcp :80: bind: address already in use", [],
     {| provider := Samples.answering;
        logged := ["Proxy server listening on port 80"];
        posted := []; bodies := [] |}).
Proof. reflexivity. Qed.

End ProxyMore.
